(** * Multi-agent report generator: the orchestration graph

    A shallow embedding of [multi_agent_hierarchy.py]: the shared
    [AgentState], the nine node functions, the [router] used on every
    conditional edge, and the loop that [graph.invoke] runs over them.

    Conventions.
    - A Python [str] is a Rocq [string] (the UTF-8 bytes of the text).  A
      slice [s[:n]] is [substring 0 n s]; on non-ASCII text the Python slice
      counts code points and the model counts bytes, and no statement below
      depends on where such a cut falls.
    - [AgentState] is a [TypedDict]: every key may be absent.  A field is
      [None] when the key is absent, so [state.get(k, d)] is
      [get d (k state)].
    - A node returns a partial dict; the same record type is used for it,
      with [None] for the keys the node does not return.
    - [llm.invoke] and [datetime.now] are the two effects.  The first is a
      section variable that may raise; every call is recorded in an event
      log.  The second is a section variable holding the formatted time. *)

From Stdlib Require Import String Ascii List Bool Arith Lia.
Import ListNotations.
Local Open Scope list_scope.
Local Open Scope string_scope.

(** ** Strings *)

Definition nl : string := String (ascii_of_nat 10) EmptyString.

(** Python truthiness of a [str]: [bool(s)]. *)
Definition truthy (s : string) : bool :=
  match s with
  | EmptyString => false
  | String _ _ => true
  end.

(** [t in s] for two Python strings. *)
Definition contains (s t : string) : Prop :=
  exists pre post, s = pre ++ t ++ post.

(** [dict.get(key, default)] on an optional field. *)
Definition get {A : Type} (default : A) (field : option A) : A :=
  match field with
  | Some v => v
  | None => default
  end.

(** ** State definition *)

Inductive Message : Type :=
| HumanMessage (content : string)
| AIMessage (content : string)
| SystemMessage (content : string).

Definition content (m : Message) : string :=
  match m with
  | HumanMessage c | AIMessage c | SystemMessage c => c
  end.

Record AgentState : Type := {
  messages : list Message;
  next_agent : option string;
  research_data : option string;
  market_data : option string;
  merged_research : option string;
  technical_text : option string;
  summary_text : option string;
  final_report : option string;
  task_complete : option bool;
  current_task : option string
}.

(** How the graph writes a node's return value into the state: every key
    of [AgentState] other than [messages] is a last-value channel (a
    returned key overwrites, a missing key leaves the value), and
    [messages] goes through [add_messages], which appends the returned
    messages (they carry no id, so none replaces an earlier one). *)
Definition overwrite {A : Type} (old new : option A) : option A :=
  match new with
  | Some v => Some v
  | None => old
  end.

Definition apply_update (state update : AgentState) : AgentState := {|
  messages := (messages state ++ messages update)%list;
  next_agent := overwrite (next_agent state) (next_agent update);
  research_data := overwrite (research_data state) (research_data update);
  market_data := overwrite (market_data state) (market_data update);
  merged_research := overwrite (merged_research state) (merged_research update);
  technical_text := overwrite (technical_text state) (technical_text update);
  summary_text := overwrite (summary_text state) (summary_text update);
  final_report := overwrite (final_report state) (final_report update);
  task_complete := overwrite (task_complete state) (task_complete update);
  current_task := overwrite (current_task state) (current_task update)
|}.

(** ** Effects: exceptions and the log of events *)

Inductive Exn : Type :=
| CollaboratorError (detail : string)
    (* whatever [llm.invoke] raises: transport, quota, ... *)
| KeyError (key : string)
    (* the router's value is not a key of the edge's path map *)
| GraphRecursionError
    (* the recursion limit was reached with a node still to run *)
| GenerationError (worker task : string).
    (* the error kind of the specification's taxonomy; no code raises it *)

Inductive Res (A : Type) : Type :=
| Ok (a : A)
| Raise (e : Exn).
Arguments Ok {A} a.
Arguments Raise {A} e.

Inductive Event : Type :=
| Enter (node : string)        (* the graph starts a node *)
| Generate (prompt : string).  (* one call of [llm.invoke] *)

(** A computation: the events it caused, in order, and how it ended. *)
Definition M (A : Type) : Type := (list Event * Res A)%type.

Definition ret {A : Type} (a : A) : M A := ([], Ok a).

Definition raise {A : Type} (e : Exn) : M A := ([], Raise e).

Definition tell (ev : Event) : M unit := ([ev], Ok tt).

Definition bind {A B : Type} (m : M A) (f : A -> M B) : M B :=
  match m with
  | (evs, Ok a) => let (evs', r) := f a in ((evs ++ evs')%list, r)
  | (evs, Raise e) => (evs, Raise e)
  end.

Notation "x <- m ;; k" := (bind m (fun x => k))
  (at level 61, m at next level, right associativity).
Notation "m ;;; k" := (bind m (fun _ => k))
  (at level 61, right associativity).

Definition events {A : Type} (m : M A) : list Event := fst m.
Definition answer {A : Type} (m : M A) : Res A := snd m.

Fixpoint entered (evs : list Event) : list string :=
  match evs with
  | [] => []
  | Enter n :: rest => n :: entered rest
  | Generate _ :: rest => entered rest
  end.

Fixpoint generated (evs : list Event) : list string :=
  match evs with
  | [] => []
  | Enter _ :: rest => generated rest
  | Generate p :: rest => p :: generated rest
  end.

(** ** Routing *)

(** [langgraph.graph.END]; the [Literal] in [router]'s signature spells it
    out. *)
Definition END : string := "__end__".

Definition router (state : AgentState) : string :=
  if get false (task_complete state) then END
  else get "ceo_agent" (next_agent state).

(** ** The nodes that call no collaborator *)

Definition ceo_agent (state : AgentState) : AgentState :=
  let has_research := truthy (get "" (merged_research state)) in
  let has_tech := truthy (get "" (technical_text state)) in
  let has_summary := truthy (get "" (summary_text state)) in
  let '(next, ceo_msg) :=
    if negb has_research then
      ("research_team_leader",
       "🧑‍💼 CEO: Let's start research. Handing off to Research Team Leader.")
    else if negb (has_tech && has_summary) then
      ("writing_team_leader",
       "🧑‍💼 CEO: Research complete. Handing off to Writing Team Leader.")
    else
      ("end",
       "🧑‍💼 CEO: All tasks complete. Great job team!") in
  {| messages := [AIMessage ceo_msg];
     next_agent := Some next;
     research_data := None; market_data := None; merged_research := None;
     technical_text := None; summary_text := None; final_report := None;
     task_complete := None; current_task := None |}.

Definition research_team_leader (state : AgentState) : AgentState :=
  let task := get "No Task Provided" (current_task state) in
  let leader_msg :=
    "📋 Research Team Leader:" ++ nl ++
    "Splitting research task:" ++ nl ++
    "- Data Researcher → factual data" ++ nl ++
    "- Market Researcher → market trends" ++ nl ++
    "Task: " ++ task in
  {| messages := [AIMessage leader_msg];
     next_agent := Some "data_researcher";
     research_data := None; market_data := None; merged_research := None;
     technical_text := None; summary_text := None; final_report := None;
     task_complete := None; current_task := None |}.

Definition merge_research (state : AgentState) : AgentState :=
  let merged :=
    "**DATA RESEARCH:**" ++ nl ++ get "" (research_data state) ++ nl ++ nl ++
    "**MARKET RESEARCH:**" ++ nl ++ get "" (market_data state) in
  {| messages := [AIMessage "✅ Research Team Leader: Merged research data."];
     next_agent := Some "ceo_agent";
     research_data := None; market_data := None;
     merged_research := Some merged;
     technical_text := None; summary_text := None; final_report := None;
     task_complete := None; current_task := None |}.

Definition writing_team_leader (state : AgentState) : AgentState :=
  let msg :=
    "📝 Writing Team Leader: Assigning tasks to Technical Writer and Summary Writer." in
  {| messages := [AIMessage msg];
     next_agent := Some "technical_writer";
     research_data := None; market_data := None; merged_research := None;
     technical_text := None; summary_text := None; final_report := None;
     task_complete := None; current_task := None |}.

(** ** The collaborator, the remaining nodes and the graph *)

Section Graph.

(** [llm.invoke([HumanMessage(content=prompt)]).content], or the
    exception the call raises. *)
Variable llm : string -> Res string.

(** [datetime.now().strftime('%Y-%m-%d %H:%M')]. *)
Variable now : string.

Definition llm_invoke (prompt : string) : M string :=
  ([Generate prompt], llm prompt).

(** The [prompt] f-string of each collaborator node. *)
Definition data_researcher_prompt (task : string) : string :=
  "As a Data Researcher, find factual data, statistics, and scientific info about:"
  ++ nl ++ nl ++ task ++ nl ++ nl ++
  "Keep it concise but thorough.".

Definition market_researcher_prompt (task : string) : string :=
  "As a Market Researcher, find trends, business insights, and market data about:"
  ++ nl ++ nl ++ task ++ nl ++ nl ++
  "Keep it concise but thorough.".

Definition technical_writer_prompt (task research : string) : string :=
  "As a Technical Writer, write a technical explanation about:" ++ nl ++ nl ++
  "Task: " ++ task ++ nl ++ nl ++
  "Based on research:" ++ nl ++
  substring 0 2000 research ++ nl.

Definition summary_writer_prompt (task research : string) : string :=
  "As a Summary Writer, create an executive summary for:" ++ nl ++ nl ++
  "Task: " ++ task ++ nl ++ nl ++
  "Based on:" ++ nl ++
  substring 0 2000 research ++ nl.

Definition data_researcher (state : AgentState) : M AgentState :=
  let task := get "" (current_task state) in
  let prompt := data_researcher_prompt task in
  result <- llm_invoke prompt ;;
  ret {| messages :=
           [AIMessage ("🔎 Data Researcher:" ++ nl ++ substring 0 400 result ++ "...")];
         research_data := Some result;
         next_agent := Some "market_researcher";
         market_data := None; merged_research := None;
         technical_text := None; summary_text := None; final_report := None;
         task_complete := None; current_task := None |}.

Definition market_researcher (state : AgentState) : M AgentState :=
  let task := get "" (current_task state) in
  let prompt := market_researcher_prompt task in
  result <- llm_invoke prompt ;;
  ret {| messages :=
           [AIMessage ("📈 Market Researcher:" ++ nl ++ substring 0 400 result ++ "...")];
         market_data := Some result;
         next_agent := Some "merge_research";
         research_data := None; merged_research := None;
         technical_text := None; summary_text := None; final_report := None;
         task_complete := None; current_task := None |}.

Definition technical_writer (state : AgentState) : M AgentState :=
  let research := get "" (merged_research state) in
  let task := get "" (current_task state) in
  let prompt := technical_writer_prompt task research in
  result <- llm_invoke prompt ;;
  ret {| messages :=
           [AIMessage ("🧑‍💻 Technical Writer:" ++ nl ++ substring 0 400 result ++ "...")];
         technical_text := Some result;
         next_agent := Some "summary_writer";
         research_data := None; market_data := None; merged_research := None;
         summary_text := None; final_report := None;
         task_complete := None; current_task := None |}.

Definition summary_writer (state : AgentState) : M AgentState :=
  let research := get "" (merged_research state) in
  let task := get "" (current_task state) in
  let prompt := summary_writer_prompt task research in
  result <- llm_invoke prompt ;;
  ret {| messages :=
           [AIMessage ("📝 Summary Writer:" ++ nl ++ substring 0 400 result ++ "...")];
         summary_text := Some result;
         next_agent := Some "compile_report";
         research_data := None; market_data := None; merged_research := None;
         technical_text := None; final_report := None;
         task_complete := None; current_task := None |}.

Definition rule : string :=
  "=========================================================".

(** The [report] f-string of [compile_report], from the line break
    after its opening quotes to the one before its closing quotes. *)
Definition report_text (topic technical summary : string) : string :=
  nl ++
  "📄 FINAL REPORT" ++ nl ++
  rule ++ nl ++
  "Generated: " ++ now ++ nl ++
  "Topic: " ++ topic ++ nl ++
  rule ++ nl ++
  nl ++
  "**Technical Details:**" ++ nl ++
  technical ++ nl ++
  nl ++
  "**Executive Summary:**" ++ nl ++
  summary ++ nl ++
  nl ++
  rule ++ nl ++
  "Compiled by Multi-Agent AI System powered by Groq" ++ nl.

Definition compile_report (state : AgentState) : AgentState :=
  let report :=
    report_text (get "" (current_task state))
                (get "" (technical_text state))
                (get "" (summary_text state)) in
  {| messages := [AIMessage "✅ Writing Team Leader: Final report compiled."];
     final_report := Some report;
     task_complete := Some true;
     next_agent := Some "ceo_agent";
     research_data := None; market_data := None; merged_research := None;
     technical_text := None; summary_text := None; current_task := None |}.

(** *** Build graph *)

Definition Node : Type := AgentState -> M AgentState.

(** A node whose function neither calls the collaborator nor raises. *)
Definition pure_node (f : AgentState -> AgentState) : Node :=
  fun state => ret (f state).

(** [workflow.add_node(name, function)], in the order of the source. *)
Definition nodes : list (string * Node) :=
  [ ("ceo_agent", pure_node ceo_agent);
    ("research_team_leader", pure_node research_team_leader);
    ("data_researcher", data_researcher);
    ("market_researcher", market_researcher);
    ("merge_research", pure_node merge_research);
    ("writing_team_leader", pure_node writing_team_leader);
    ("technical_writer", technical_writer);
    ("summary_writer", summary_writer);
    ("compile_report", pure_node compile_report) ].

Definition entry_point : string := "ceo_agent".

(** The path map given to [add_conditional_edges], the same for every
    node: from the router's value to the destination. *)
Definition path_map : list (string * string) :=
  [ ("ceo_agent", "ceo_agent");
    ("research_team_leader", "research_team_leader");
    ("data_researcher", "data_researcher");
    ("market_researcher", "market_researcher");
    ("merge_research", "merge_research");
    ("writing_team_leader", "writing_team_leader");
    ("technical_writer", "technical_writer");
    ("summary_writer", "summary_writer");
    ("compile_report", "compile_report");
    (END, END) ].

Fixpoint lookup {A : Type} (key : string) (table : list (string * A)) : option A :=
  match table with
  | [] => None
  | (k, v) :: rest => if (k =? key)%string then Some v else lookup key rest
  end.

(** *** The loop of [graph.invoke]

    The compiled graph is LangGraph's: it starts at the entry point and
    repeats one superstep (run the node on the state, write its return
    value into the state, ask the node's conditional edge where to go)
    until the edge answers [END].  An exception raised by a node leaves
    [invoke] as it is, and so does the [KeyError] of a router value
    missing from the path map.  A recursion limit bounds the number of
    supersteps; [invoke] is called without a config, so the limit is
    LangGraph's default, 25.  What is proved of complete runs below
    holds for every limit from ten on. *)

Definition superstep (node : string) (state : AgentState)
  : M (string * AgentState) :=
  match lookup node nodes with
  | None => raise (KeyError node)
  | Some run_node =>
      tell (Enter node) ;;;
      update <- run_node state ;;
      let state' := apply_update state update in
      let route := router state' in
      match lookup route path_map with
      | None => raise (KeyError route)
      | Some dest => ret (dest, state')
      end
  end.

Fixpoint pregel (limit : nat) (node : string) (state : AgentState)
  : M AgentState :=
  match limit with
  | 0 => raise GraphRecursionError
  | S limit' =>
      next <- superstep node state ;;
      let '(dest, state') := next in
      if (dest =? END)%string then ret state' else pregel limit' dest state'
  end.

Definition default_recursion_limit : nat := 25.

Definition invoke (input : AgentState) : M AgentState :=
  pregel default_recursion_limit entry_point input.

(** *** Reachable configurations of a run

    [reaches input node state]: the run started on [input] gets to the
    point where [node] is due on [state]; [node] is [END] once the run
    is over, and [state] is then what [invoke] returns. *)
Inductive reaches (input : AgentState) : string -> AgentState -> Prop :=
| reaches_start : reaches input entry_point input
| reaches_step node state dest state' :
    reaches input node state ->
    answer (superstep node state) = Ok (dest, state') ->
    reaches input dest state'.

End Graph.

(** [advance k node state]: [k] supersteps in a row, from [node] due on
    [state]; where the run is, if none of them raised. *)
Fixpoint advance (llm : string -> Res string) (now : string)
         (k : nat) (node : string) (state : AgentState)
  : Res (string * AgentState) :=
  match k with
  | 0 => Ok (node, state)
  | S k' =>
      match answer (superstep llm now node state) with
      | Ok (dest, state') => advance llm now k' dest state'
      | Raise e => Raise e
      end
  end.

(** The input the program gives to [graph.invoke], in [__main__] and in
    the Streamlit page: the question as the task and as the one seed
    message. *)
Definition initial_state (user_question : string) : AgentState := {|
  messages := [HumanMessage user_question];
  current_task := Some user_question;
  next_agent := None; research_data := None; market_data := None;
  merged_research := None; technical_text := None; summary_text := None;
  final_report := None; task_complete := None
|}.

(** A stubbed collaborator: never raises, answers [reply prompt]. *)
Definition stub (reply : string -> string) : string -> Res string :=
  fun prompt => Ok (reply prompt).

(** ** The Streamlit page ([app.py])

    What the page does when the button is pressed, as the list of the
    Streamlit calls it makes.  [str.strip] is the interpreter's and is
    taken as a parameter; an exception raised by [graph.invoke] is not
    caught and leaves the handler. *)

Inductive Widget : Type :=
| st_warning (body : string)
| st_spinner (text : string)
| st_subheader (body : string)
| st_markdown (body : string)
| st_error (body : string).

Section Page.

Variable strip : string -> string.
Variable llm : string -> Res string.
Variable now : string.

Definition generate_report (user_question : string) : M (list Widget) :=
  if negb (truthy (strip user_question)) then
    ret [st_warning "Please enter a question or task before generating a report."]
  else
    result <- invoke llm now (initial_state user_question) ;;
    match final_report result with
    | Some report =>
        if truthy report then
          ret [ st_spinner "Generating report... This may take some time.";
                st_subheader "Final Report";
                st_markdown report ]
        else
          ret [ st_spinner "Generating report... This may take some time.";
                st_error "Failed to generate report. Please try again." ]
    | None =>
        ret [ st_spinner "Generating report... This may take some time.";
              st_error "Failed to generate report. Please try again." ]
    end.

End Page.

(** [str.strip] on ASCII text, for examples: the characters Python counts
    as white space below 128 are 9 to 13 and 28 to 32. *)
Definition isspace (c : ascii) : bool :=
  let n := nat_of_ascii c in
  ((9 <=? n)%nat && (n <=? 13)%nat) || ((28 <=? n)%nat && (n <=? 32)%nat).

Fixpoint lstrip (s : string) : string :=
  match s with
  | EmptyString => EmptyString
  | String c rest => if isspace c then lstrip rest else s
  end.

Fixpoint rstrip (s : string) : string :=
  match s with
  | EmptyString => EmptyString
  | String c rest =>
      match rstrip rest with
      | EmptyString => if isspace c then EmptyString else String c EmptyString
      | String c' rest' => String c (String c' rest')
      end
  end.

Definition strip_ascii (s : string) : string := rstrip (lstrip s).

(** The question of [__main__]. *)
Definition example_question : string :=
  "What are the benefits and risks of AI in healthcare?".


(** ** The specification's words, for comparison with the code *)

(** The report layout of the specification's section on external
    interfaces, line by line, with its four substituted values. *)
Definition report_layout (generated_at topic technical summary backend : string)
  : string :=
  "📄 FINAL REPORT" ++ nl ++
  "=========================================================" ++ nl ++
  "Generated: " ++ generated_at ++ nl ++
  "Topic: " ++ topic ++ nl ++
  "=========================================================" ++ nl ++
  nl ++
  "**Technical Details:**" ++ nl ++
  technical ++ nl ++
  nl ++
  "**Executive Summary:**" ++ nl ++
  summary ++ nl ++
  nl ++
  "=========================================================" ++ nl ++
  "Compiled by Multi-Agent AI System powered by " ++ backend.

(** The visiting order the specification gives for the happy path. *)
Definition specified_sequence : list string :=
  [ "ceo_agent"; "research_team_leader"; "data_researcher";
    "market_researcher"; "merge_research"; "ceo_agent";
    "writing_team_leader"; "technical_writer"; "summary_writer";
    "compile_report"; "ceo_agent" ].

(** The visiting order of the graph. *)
Definition happy_path : list string :=
  [ "ceo_agent"; "research_team_leader"; "data_researcher";
    "market_researcher"; "merge_research"; "ceo_agent";
    "writing_team_leader"; "technical_writer"; "summary_writer";
    "compile_report" ].

(** The names given to [workflow.add_node]. *)
Definition registered : list string :=
  [ "ceo_agent"; "research_team_leader"; "data_researcher";
    "market_researcher"; "merge_research"; "writing_team_leader";
    "technical_writer"; "summary_writer"; "compile_report" ].

(** A snapshot in which research, technical text and summary are all
    there and the report is not compiled yet. *)
Definition all_texts_present : AgentState := {|
  messages := [HumanMessage "task"];
  current_task := Some "task";
  merged_research := Some "R";
  technical_text := Some "T";
  summary_text := Some "S";
  next_agent := None; research_data := None; market_data := None;
  final_report := None; task_complete := None
|}.

(** The inputs of the merge step in two snapshots: the data researcher's
    text empty next to the market text ["market X"], and both there. *)
Definition data_empty : AgentState := {|
  messages := []; current_task := Some "task";
  research_data := Some ""; market_data := Some "market X";
  next_agent := None; merged_research := None;
  technical_text := None; summary_text := None;
  final_report := None; task_complete := None
|}.

Definition data_present : AgentState := {|
  messages := []; current_task := Some "task";
  research_data := Some "STATS"; market_data := Some "market X";
  next_agent := None; merged_research := None;
  technical_text := None; summary_text := None;
  final_report := None; task_complete := None
|}.

(** Collaborators used in examples: one that always answers the same
    text, one that is out of quota. *)
Definition always (text : string) : string -> Res string :=
  stub (fun _ => text).

Definition out_of_quota : string -> Res string :=
  fun _ => Raise (CollaboratorError "quota").

(** A third one, whose quota lasts for the data researcher's call only. *)
Definition quota_after_data : string -> Res string :=
  fun prompt =>
    if prefix "As a Data Researcher" prompt then Ok "STATS"
    else Raise (CollaboratorError "quota").

(** What a run keeps true of the research fields, for a property [holds]
    of a field: the field of a researcher that has run has it, so both
    have it when [merge_research] is due, and both have it ever after
    [merged_research] is written. *)
Definition research_ready (holds : option string -> Prop)
           (node : string) (state : AgentState) : Prop :=
  (node = "market_researcher" -> holds (research_data state)) /\
  (node = "merge_research" ->
   holds (research_data state) /\ holds (market_data state)) /\
  (merged_research state <> None ->
   holds (research_data state) /\ holds (market_data state)).

Definition is_set (field : option string) : Prop := field <> None.

Definition is_nonempty (field : option string) : Prop :=
  truthy (get "" field) = true.

(** What a run from the initial state keeps true of its routing: a node
    wrote a registered name to [next_agent] or none wrote yet, and as long
    as a node is due the report is not compiled and, up to the technical
    writer, there is no technical text. *)
Definition routing_sound (node : string) (state : AgentState) : Prop :=
  (next_agent state = None \/
   exists name, next_agent state = Some name /\ In name registered) /\
  (node = END \/
   (task_complete state <> Some true /\
    (technical_text state = None \/
     node = "summary_writer" \/ node = "compile_report"))).

(** * Properties *)

(** ** Strings *)

Lemma append_assoc (a b c : string) : (a ++ b) ++ c = a ++ (b ++ c).
Proof.
  induction a as [|ch a IH]; simpl; [reflexivity | now rewrite IH].
Qed.

Lemma append_nil_r (a : string) : a ++ "" = a.
Proof.
  induction a as [|ch a IH]; simpl; [reflexivity | now rewrite IH].
Qed.

Lemma contains_refl (s : string) : contains s s.
Proof. exists "", "". simpl. now rewrite append_nil_r. Qed.

Lemma contains_head (t rest : string) : contains (t ++ rest) t.
Proof. now exists "", rest. Qed.

Lemma contains_skip (a s t : string) : contains s t -> contains (a ++ s) t.
Proof.
  intros (pre & post & ->). exists (a ++ pre), post.
  now rewrite append_assoc.
Qed.

Lemma truthy_true (s : string) : truthy s = true <-> s <> "".
Proof.
  destruct s; simpl; split; intros H; congruence.
Qed.

(** ** Router *)

(** C1. [router] is a total function of the state.  On every state whose
    [task_complete] is true it answers [END], whatever the other fields
    hold; on every state whose [task_complete] is false or absent it
    answers the [next_agent] the last node wrote, and the entry point
    [ceo_agent] when no node wrote one yet. *)
Theorem router_decides (state : AgentState) :
  (task_complete state = Some true -> router state = END) /\
  (task_complete state = Some false \/ task_complete state = None ->
   (forall worker, next_agent state = Some worker -> router state = worker) /\
   (next_agent state = None -> router state = entry_point)).
Proof.
  unfold router. split.
  - intros ->. reflexivity.
  - intros [-> | ->]; simpl; split.
    + now intros worker ->.
    + now intros ->.
    + now intros worker ->.
    + now intros ->.
Qed.

Lemma router_decides_witness :
  router (apply_update all_texts_present (compile_report "2025-01-01 09:30" all_texts_present)) = END /\
  router (apply_update all_texts_present (merge_research all_texts_present)) = "ceo_agent" /\
  router (initial_state "task") = entry_point.
Proof.
  split; [| split].
  - exact (proj1 (router_decides
             (apply_update all_texts_present
                (compile_report "2025-01-01 09:30" all_texts_present))) eq_refl).
  - exact (proj1 (proj2 (router_decides
             (apply_update all_texts_present (merge_research all_texts_present)))
             (or_intror eq_refl)) _ eq_refl).
  - exact (proj2 (proj2 (router_decides (initial_state "task"))
             (or_intror eq_refl)) eq_refl).
Defined.

Ltac find_part :=
  solve [ repeat first [ apply contains_head | apply contains_refl | apply contains_skip ] ].

(** ** Supervisor *)

(** What [ceo_agent] returns on every snapshot: one message, a
    [next_agent], no other key; and which [next_agent] in each of the
    three branches. *)
Lemma ceo_agent_rows (state : AgentState) :
  let has_research := truthy (get "" (merged_research state)) in
  let has_tech := truthy (get "" (technical_text state)) in
  let has_summary := truthy (get "" (summary_text state)) in
  let update := ceo_agent state in
  (exists text, messages update = [AIMessage text] /\ text <> "") /\
  (research_data update = None /\ market_data update = None /\
   merged_research update = None /\ technical_text update = None /\
   summary_text update = None /\ final_report update = None /\
   task_complete update = None /\ current_task update = None) /\
  (has_research = false ->
   next_agent update = Some "research_team_leader") /\
  (has_research = true -> has_tech = false \/ has_summary = false ->
   next_agent update = Some "writing_team_leader") /\
  (has_research = true -> has_tech = true -> has_summary = true ->
   next_agent update = Some "end").
Proof.
  unfold ceo_agent.
  destruct (truthy (get "" (merged_research state)));
    destruct (truthy (get "" (technical_text state)));
    destruct (truthy (get "" (summary_text state))); simpl;
    (split; [eexists; split; [reflexivity | discriminate] |]);
    (split; [repeat split |]);
    repeat split; try reflexivity; try discriminate;
    intros; repeat match goal with H : _ \/ _ |- _ => destruct H end;
    try reflexivity; discriminate.
Qed.

(** C3. On the snapshot [all_texts_present] (research, technical text and
    summary all non-empty) the decision table is in its last row, and
    [ceo_agent] returns the [next_agent] ["end"].  That is not the
    terminal signal [END] of the graph, nor the name of a node, so the
    router hands the edge a value its path map does not hold. *)
Theorem ceo_agent_last_row_is_not_END :
  next_agent (ceo_agent all_texts_present) = Some "end" /\
  "end" <> END /\
  ~ In "end" registered /\
  router (apply_update all_texts_present (ceo_agent all_texts_present)) = "end" /\
  lookup (router (apply_update all_texts_present (ceo_agent all_texts_present)))
         path_map = None.
Proof.
  repeat split; try reflexivity; try discriminate.
  unfold registered. simpl. intuition discriminate.
Qed.

(** ** Compile *)

(** The report of [compile_report] does not start with the first line of
    the layout: it starts with a line break. *)
Lemma report_does_not_start_with_title :
  option_map (prefix "📄 FINAL REPORT")
    (final_report (compile_report "2025-01-01 09:30" all_texts_present))
  = Some false.
Proof. reflexivity. Qed.

Lemma report_text_layout (now topic technical summary : string) :
  report_text now topic technical summary
  = nl ++ report_layout now topic technical summary "Groq" ++ nl.
Proof.
  unfold report_text, report_layout, rule. rewrite !append_assoc. reflexivity.
Qed.

Lemma report_text_contains (now topic technical summary : string) :
  contains (report_text now topic technical summary) topic /\
  contains (report_text now topic technical summary) technical /\
  contains (report_text now topic technical summary) summary.
Proof. unfold report_text. repeat split; find_part. Qed.

(** C4, amended.  [compile_report] writes to [final_report] a line break,
    then the layout of the specification filled with the time, the task,
    the technical text, the summary and the backend name Groq, then a
    line break; the report contains the three texts; [task_complete] is
    set to true and [next_agent] to [ceo_agent].  In the state that
    results the report is non-empty, [task_complete] is true and the
    router answers [END]. *)
Theorem compile_report_writes_layout (now : string) (state : AgentState) :
  let task := get "" (current_task state) in
  let technical := get "" (technical_text state) in
  let summary := get "" (summary_text state) in
  let update := compile_report now state in
  let state' := apply_update state update in
  exists report,
    final_report update = Some report /\
    report = nl ++ report_layout now task technical summary "Groq" ++ nl /\
    contains report task /\ contains report technical /\ contains report summary /\
    task_complete update = Some true /\
    next_agent update = Some "ceo_agent" /\
    final_report state' = Some report /\ report <> "" /\
    task_complete state' = Some true /\
    router state' = END.
Proof.
  cbv zeta. eexists. split; [reflexivity |].
  split; [| split; [| split; [| split]]].
  - apply report_text_layout.
  - apply report_text_contains.
  - apply report_text_contains.
  - apply report_text_contains.
  - repeat split. discriminate.
Qed.

(** ** Merge *)

(** The log message of [merge_research] is the same whether an input is
    empty or not: nothing in it marks the result as incomplete. *)
Lemma merge_research_message_does_not_flag :
  messages (merge_research data_empty) = messages (merge_research data_present) /\
  pure_node merge_research data_empty = ([], Ok (merge_research data_empty)).
Proof. split; reflexivity. Qed.

(** C5, amended.  [merge_research] writes to [merged_research] the two
    inputs under their headers, an absent input counting as the empty
    string; the result is never empty and contains both inputs, so with
    one input empty it holds the other one next to an empty section.  The
    node does not fail and calls nothing, its log message is one fixed
    text, and it hands over to [ceo_agent]. *)
Theorem merge_research_concatenates (state : AgentState) :
  let data := get "" (research_data state) in
  let market := get "" (market_data state) in
  let update := merge_research state in
  exists merged,
    merged_research update = Some merged /\
    merged = "**DATA RESEARCH:**" ++ nl ++ data ++ nl ++ nl ++
             "**MARKET RESEARCH:**" ++ nl ++ market /\
    merged <> "" /\
    contains merged data /\ contains merged market /\
    (data = "" ->
     merged = "**DATA RESEARCH:**" ++ nl ++ nl ++ nl ++
              "**MARKET RESEARCH:**" ++ nl ++ market) /\
    (market = "" ->
     merged = "**DATA RESEARCH:**" ++ nl ++ data ++ nl ++ nl ++
              "**MARKET RESEARCH:**" ++ nl) /\
    messages update = [AIMessage "✅ Research Team Leader: Merged research data."] /\
    next_agent update = Some "ceo_agent" /\
    (forall llm now, lookup "merge_research" (nodes llm now) = Some (pure_node merge_research)) /\
    pure_node merge_research state = ([], Ok update).
Proof.
  cbv zeta. eexists. split; [reflexivity |].
  split; [reflexivity |].
  split; [discriminate |].
  split; [find_part |].
  split; [find_part |].
  split; [intros ->; reflexivity |].
  split; [intros ->; now rewrite append_nil_r |].
  repeat split.
Qed.

Lemma merge_research_concatenates_witness :
  exists merged,
    merged_research (merge_research data_empty) = Some merged /\
    merged = "**DATA RESEARCH:**" ++ nl ++ nl ++ nl ++
             "**MARKET RESEARCH:**" ++ nl ++ "market X" /\
    merged <> "" /\
    contains merged "market X".
Proof.
  destruct (merge_research_concatenates data_empty)
    as (merged & Hwritten & _ & Hnonempty & _ & Hmarket & Hdata & _).
  exists merged. split; [exact Hwritten |].
  split; [apply Hdata; reflexivity |].
  split; [exact Hnonempty | exact Hmarket].
Defined.

(** ** The recursion limit *)

(** A run that returns under one limit is the same run under every
    greater limit. *)
Lemma pregel_more_fuel (llm : string -> Res string) (now : string) (limit : nat) :
  forall node state final,
    answer (pregel llm now limit node state) = Ok final ->
    forall limit', limit <= limit' ->
      pregel llm now limit' node state = pregel llm now limit node state.
Proof.
  induction limit as [|limit IH]; intros node state final Hrun limit' Hle.
  - discriminate Hrun.
  - destruct limit' as [|limit']; [lia |].
    cbn [pregel] in *.
    destruct (superstep llm now node state) as [evs [[dest state']|e]];
      [| reflexivity].
    unfold bind in *.
    destruct (dest =? END)%string; [reflexivity |].
    destruct (pregel llm now limit dest state') as [evs' r] eqn:Hrest.
    rewrite (IH dest state' final); [now rewrite Hrest | | lia].
    rewrite Hrest. exact Hrun.
Qed.

(** ** The happy path *)

Section HappyPath.

Variable reply : string -> string.
Variables now task : string.

Let data := reply (data_researcher_prompt task).
Let market := reply (market_researcher_prompt task).
Let merged :=
  "**DATA RESEARCH:**" ++ nl ++ data ++ nl ++ nl ++
  "**MARKET RESEARCH:**" ++ nl ++ market.
Let technical := reply (technical_writer_prompt task merged).
Let summary := reply (summary_writer_prompt task merged).

(** With a collaborator that never raises, ten supersteps take the
    graph from the initial state to [END]: the events, and the state
    returned. *)
Lemma happy_run :
  let run := pregel (stub reply) now 10 entry_point (initial_state task) in
  events run =
    [ Enter "ceo_agent"; Enter "research_team_leader";
      Enter "data_researcher"; Generate (data_researcher_prompt task);
      Enter "market_researcher"; Generate (market_researcher_prompt task);
      Enter "merge_research"; Enter "ceo_agent"; Enter "writing_team_leader";
      Enter "technical_writer"; Generate (technical_writer_prompt task merged);
      Enter "summary_writer"; Generate (summary_writer_prompt task merged);
      Enter "compile_report" ] /\
  exists log,
    answer run =
      Ok {| messages := HumanMessage task :: log;
            next_agent := Some "ceo_agent";
            research_data := Some data;
            market_data := Some market;
            merged_research := Some merged;
            technical_text := Some technical;
            summary_text := Some summary;
            final_report := Some (report_text now task technical summary);
            task_complete := Some true;
            current_task := Some task |} /\
    List.length log = 10 /\
    Forall (fun m => content m <> "") log.
Proof.
  cbv zeta. split.
  - vm_compute. reflexivity.
  - eexists. split; [| split].
    + cbv. reflexivity.
    + reflexivity.
    + repeat constructor; discriminate.
Qed.

(** One superstep less and the limit is hit. *)
Lemma nine_steps_are_not_enough :
  answer (pregel (stub reply) now 9 entry_point (initial_state task))
  = Raise GraphRecursionError.
Proof. vm_compute. reflexivity. Qed.

(** Every limit from ten on gives the run of ten supersteps; so does
    [invoke], whose limit is the default. *)
Lemma happy_limit (limit : nat) :
  10 <= limit ->
  pregel (stub reply) now limit entry_point (initial_state task)
  = pregel (stub reply) now 10 entry_point (initial_state task).
Proof.
  destruct happy_run as [_ (log & Hanswer & _)].
  intros Hlimit. eapply pregel_more_fuel; eassumption.
Qed.

Lemma happy_invoke :
  invoke (stub reply) now (initial_state task)
  = pregel (stub reply) now 10 entry_point (initial_state task).
Proof. apply happy_limit. unfold default_recursion_limit. lia. Qed.

End HappyPath.

(** ** One superstep *)

Section Superstep.

Variable llm : string -> Res string.
Variable now : string.

(** A superstep that succeeds ran a registered node to its end, wrote
    its return value into the state, and found the router's value in
    the path map. *)
Lemma superstep_ok (node : string) (state : AgentState)
      (dest : string) (state' : AgentState) :
  answer (superstep llm now node state) = Ok (dest, state') ->
  exists run_node evs update,
    lookup node (nodes llm now) = Some run_node /\
    run_node state = (evs, Ok update) /\
    state' = apply_update state update /\
    lookup (router state') path_map = Some dest.
Proof.
  unfold superstep.
  destruct (lookup node (nodes llm now)) as [run_node|]; [| discriminate].
  unfold bind, tell, answer.
  destruct (run_node state) as [evs [update|e]] eqn:Hrun; [| discriminate].
  destruct (lookup (router (apply_update state update)) path_map)
    as [d|] eqn:Hroute; [| discriminate].
  simpl. intros [= <- <-]. now exists run_node, evs, update.
Qed.

(** The registry holds nine names, each with its function. *)
Lemma node_cases (node : string) (run_node : Node) :
  lookup node (nodes llm now) = Some run_node ->
  (node = "ceo_agent" /\ run_node = pure_node ceo_agent) \/
  (node = "research_team_leader" /\ run_node = pure_node research_team_leader) \/
  (node = "data_researcher" /\ run_node = data_researcher llm) \/
  (node = "market_researcher" /\ run_node = market_researcher llm) \/
  (node = "merge_research" /\ run_node = pure_node merge_research) \/
  (node = "writing_team_leader" /\ run_node = pure_node writing_team_leader) \/
  (node = "technical_writer" /\ run_node = technical_writer llm) \/
  (node = "summary_writer" /\ run_node = summary_writer llm) \/
  (node = "compile_report" /\ run_node = pure_node (compile_report now)).
Proof.
  unfold nodes. cbn [lookup].
  repeat match goal with
         | |- context [ (?k =? node)%string ] =>
             destruct (String.eqb_spec k node) as [<- | _];
             [ intros [= <-]; tauto | ]
         end.
  discriminate.
Qed.

(** The path map sends each registered name to itself, [END] to [END],
    and holds nothing else. *)
Lemma path_map_cases (route dest : string) :
  lookup route path_map = Some dest ->
  dest = route /\ (In route registered \/ route = END).
Proof.
  unfold path_map, registered, END. cbn [lookup].
  repeat match goal with
         | |- context [ (?k =? route)%string ] =>
             destruct (String.eqb_spec k route) as [<- | _];
             [ intros [= <-]; simpl; tauto | ]
         end.
  discriminate.
Qed.

(** X13. Where a successful superstep goes: to the router's value on the
    new state, which is a registered name or [END].  The graph never
    continues at a node it does not have. *)
Lemma superstep_dest (node : string) (state : AgentState)
      (dest : string) (state' : AgentState) :
  answer (superstep llm now node state) = Ok (dest, state') ->
  dest = router state' /\ (In dest registered \/ dest = END).
Proof.
  intros Hstep.
  apply superstep_ok in Hstep.
  destruct Hstep as (run_node & evs & update & _ & _ & _ & Hroute).
  apply path_map_cases in Hroute. destruct Hroute as [-> Hroute].
  split; [reflexivity | exact Hroute].
Qed.

End Superstep.

(** Take a successful superstep apart: which node ran, what it returned. *)
Ltac node_returned Hrun :=
  unfold pure_node, ret, data_researcher, market_researcher,
    technical_writer, summary_writer, bind, llm_invoke in Hrun;
  cbv zeta in Hrun;
  try match type of Hrun with
      | context [ match ?llm ?prompt with _ => _ end ] =>
          let Hllm := fresh "Hllm" in
          destruct (llm prompt) eqn:Hllm
      end;
  simpl in Hrun;
  try discriminate Hrun;
  injection Hrun as <- <-.

Ltac take_superstep H :=
  let run_node := fresh "run_node" in
  let evs := fresh "evs" in
  let update := fresh "update" in
  let Hnode := fresh "Hnode" in
  let Hrun := fresh "Hrun" in
  let Hstate := fresh "Hstate" in
  let Hroute := fresh "Hroute" in
  apply superstep_ok in H;
  destruct H as (run_node & evs & update & Hnode & Hrun & Hstate & Hroute);
  apply node_cases in Hnode;
  repeat match type of Hnode with
         | _ \/ _ => destruct Hnode as [Hnode | Hnode]
         end;
  destruct Hnode as [-> ->];
  node_returned Hrun.

(** ** The messages log *)

(** Every superstep leaves the log as it was and appends one message,
    which is not empty. *)
Lemma superstep_appends_one_message
      (llm : string -> Res string) (now node : string)
      (state : AgentState) (dest : string) (state' : AgentState) :
  answer (superstep llm now node state) = Ok (dest, state') ->
  exists m,
    messages state' = (messages state ++ [m])%list /\ content m <> "".
Proof.
  intros H. take_superstep H; subst state'; cbn [messages apply_update].
  1: { destruct (ceo_agent_rows state) as [(text & -> & Htext) _].
       now exists (AIMessage text). }
  all: eexists; (split; [reflexivity |]); simpl; discriminate.
Qed.

(** ** Invariants of a run *)

(** Where a successful superstep goes: the router's value on the new
    state, case by case. *)
Ltac find_dest Hroute :=
  unfold router in Hroute;
  try (unfold ceo_agent in *;
       destruct (truthy (get "" (merged_research _))) eqn:?;
       destruct (truthy (get "" (technical_text _))) eqn:?;
       destruct (truthy (get "" (summary_text _))) eqn:?);
  simpl in Hroute;
  try match type of Hroute with
      | context [ task_complete ?state ] =>
          destruct (task_complete state) as [[|]|] eqn:?
      end;
  simpl in Hroute; try discriminate Hroute; injection Hroute as <-.

Section Invariants.

Variable llm : string -> Res string.
Variable now : string.

Lemma advance_reaches (input : AgentState) (k : nat) :
  forall node state dest state',
    reaches llm now input node state ->
    advance llm now k node state = Ok (dest, state') ->
    reaches llm now input dest state'.
Proof.
  induction k as [|k IH]; simpl; intros node state dest state' Hreach Hadv.
  - now injection Hadv as <- <-.
  - destruct (answer (superstep llm now node state)) as [[d s]|e] eqn:Hstep;
      [| discriminate].
    eapply IH; [| exact Hadv].
    eapply reaches_step; eassumption.
Qed.

Section Research.

Variable holds : option string -> Prop.
Hypothesis holds_result :
  forall prompt result, llm prompt = Ok result -> holds (Some result).

Lemma research_ready_step (node : string) (state : AgentState)
      (dest : string) (state' : AgentState) :
  research_ready holds node state ->
  answer (superstep llm now node state) = Ok (dest, state') ->
  research_ready holds dest state'.
Proof.
  intros (Hm & Hg & Hd) H.
  take_superstep H; subst state'; find_dest Hroute.
  all: unfold research_ready; simpl; repeat split; intros; try discriminate.
  all: try (eapply holds_result; eassumption).
  all: try (apply Hd; assumption).
  all: try (apply Hm; reflexivity).
  all: apply Hg; reflexivity.
Qed.

Lemma research_ready_reaches (input : AgentState)
      (node : string) (state : AgentState) :
  merged_research input = None ->
  reaches llm now input node state ->
  research_ready holds node state.
Proof.
  intros Hinput Hreach.
  induction Hreach as [| node state dest state' _ IH Hstep].
  - unfold research_ready, entry_point.
    repeat split; intros; try discriminate; congruence.
  - eapply research_ready_step; eassumption.
Qed.

End Research.

Lemma routing_sound_step (node : string) (state : AgentState)
      (dest : string) (state' : AgentState) :
  routing_sound node state ->
  answer (superstep llm now node state) = Ok (dest, state') ->
  routing_sound dest state'.
Proof.
  intros (_ & Hdue) H.
  take_superstep H; subst state';
    (destruct Hdue as [Hend | (Htc & Htech)]; [discriminate Hend |]);
    (destruct Htech as [Htech | [Htech | Htech]]; try discriminate Htech);
    find_dest Hroute; try congruence.
  all: try (rewrite Htech in *; simpl in *; discriminate).
  all: split; [right; eexists; split; [reflexivity | simpl; tauto] |].
  all: try (left; reflexivity).
  all: right; split; simpl; try congruence; tauto.
Qed.

(** On a run from the initial state every [next_agent] a node wrote is
    a registered name: the last row of [ceo_agent] is never taken there,
    since the technical text appears only on the way to
    [compile_report], after which the router ends the run. *)
Lemma routing_sound_reaches (task node : string) (state : AgentState) :
  reaches llm now (initial_state task) node state ->
  routing_sound node state.
Proof.
  intros Hreach.
  induction Hreach as [| node state dest state' _ IH Hstep].
  - split; [now left |]. right. split; [discriminate | now left].
  - eapply routing_sound_step; eassumption.
Qed.

End Invariants.


(** ** Whole runs *)

(** The nodes a run visits are not the sequence the specification lists:
    after [compile_report] the router answers [END], and [ceo_agent] is
    not visited a third time. *)
Lemma visits_differ_from_specified_sequence :
  entered (events (invoke (always "text") "2025-01-01 09:30" (initial_state "task")))
  <> specified_sequence.
Proof. vm_compute. discriminate. Qed.

(** C2, amended.  Started on the initial state of a non-empty task, with
    a collaborator that answers every call, the graph visits exactly the
    ten nodes of [happy_path], in that order: the supervisor, the research
    leader, the two researchers, the merge, the supervisor again, the
    writing leader, the two writers, the compile step.  Then the run is
    over: [invoke] returns a state whose [task_complete] is true and on
    which the router answers [END]. *)
Theorem happy_path_visits (reply : string -> string) (now task : string) :
  task <> "" ->
  let run := invoke (stub reply) now (initial_state task) in
  entered (events run) = happy_path /\
  exists final,
    answer run = Ok final /\
    task_complete final = Some true /\
    router final = END.
Proof.
  intros _ run. subst run. rewrite happy_invoke.
  destruct (happy_run reply now task) as [Hevents (log & Hanswer & _)].
  split.
  - rewrite Hevents. reflexivity.
  - eexists. split; [exact Hanswer |]. split; reflexivity.
Qed.

Lemma happy_path_visits_witness :
  entered (events (invoke (always "text") "2025-01-01 09:30" (initial_state "task")))
  = happy_path /\
  exists final,
    answer (invoke (always "text") "2025-01-01 09:30" (initial_state "task")) = Ok final /\
    task_complete final = Some true /\
    router final = END.
Proof.
  apply (happy_path_visits (fun _ => "text") "2025-01-01 09:30" "task").
  discriminate.
Defined.



(** After the run on the task ["task"] the log holds eleven messages and
    the graph visited ten nodes: the two numbers differ. *)
Lemma log_is_longer_than_the_visits :
  exists final,
    answer (invoke (always "text") "2025-01-01 09:30" (initial_state "task")) = Ok final /\
    List.length (messages final) = 11 /\
    List.length
      (entered (events (invoke (always "text") "2025-01-01 09:30" (initial_state "task"))))
    = 10 /\
    List.length (messages final)
    <> List.length
         (entered (events (invoke (always "text") "2025-01-01 09:30" (initial_state "task")))).
Proof.
  eexists. split; [vm_compute; reflexivity |].
  split; [reflexivity |]. split; [vm_compute; reflexivity |].
  vm_compute. discriminate.
Qed.

(** C9, amended.  The log only grows, by one message at every superstep:
    a node that returns leaves the earlier messages in place and appends
    exactly one, which is not empty.  After a run on the happy path the
    log holds the seed message and one message for each of the ten nodes
    visited, eleven in all, none of them empty. *)
Theorem messages_log_grows_by_one
        (llm : string -> Res string) (reply : string -> string) (now task : string) :
  task <> "" ->
  (forall node state dest state',
     answer (superstep llm now node state) = Ok (dest, state') ->
     exists m,
       messages state' = (messages state ++ [m])%list /\
       content m <> "" /\
       List.length (messages state') = S (List.length (messages state))) /\
  (let run := invoke (stub reply) now (initial_state task) in
   exists final log,
     answer run = Ok final /\
     messages final = HumanMessage task :: log /\
     List.length log = List.length (entered (events run)) /\
     List.length (entered (events run)) = 10 /\
     List.length (messages final) = 11 /\
     Forall (fun m => content m <> "") (messages final)).
Proof.
  intros Htask. split.
  - intros node state dest state' Hstep.
    destruct (superstep_appends_one_message llm now node state dest state' Hstep)
      as (m & Hlog & Hm).
    exists m. repeat split; trivial.
    rewrite Hlog, length_app. simpl. lia.
  - cbv zeta. rewrite happy_invoke.
    destruct (happy_run reply now task) as [Hevents (log & Hanswer & Hlen & Hlog)].
    eexists _, log. split; [exact Hanswer |].
    rewrite Hevents. cbn [messages entered List.length].
    repeat split; try congruence.
    constructor; [exact Htask | exact Hlog].
Qed.

Lemma messages_log_grows_by_one_witness :
  (forall node state dest state',
     answer (superstep out_of_quota "2025-01-01 09:30" node state) = Ok (dest, state') ->
     exists m,
       messages state' = (messages state ++ [m])%list /\
       content m <> "" /\
       List.length (messages state') = S (List.length (messages state))) /\
  (exists final log,
     answer (invoke (always "text") "2025-01-01 09:30" (initial_state "task")) = Ok final /\
     messages final = HumanMessage "task" :: log /\
     List.length log
     = List.length
         (entered (events (invoke (always "text") "2025-01-01 09:30" (initial_state "task")))) /\
     List.length
       (entered (events (invoke (always "text") "2025-01-01 09:30" (initial_state "task"))))
     = 10 /\
     List.length (messages final) = 11 /\
     Forall (fun m => content m <> "") (messages final)).
Proof.
  apply (messages_log_grows_by_one out_of_quota (fun _ => "text")
           "2025-01-01 09:30" "task").
  discriminate.
Defined.

(** ** A failing collaborator *)

Section Failure.

Variable llm : string -> Res string.
Variable now : string.

(** A researcher whose call raises made that one call and raises the
    same exception. *)
Lemma data_researcher_raises (state : AgentState) (e : Exn) :
  llm (data_researcher_prompt (get "" (current_task state))) = Raise e ->
  data_researcher llm state
  = ([Generate (data_researcher_prompt (get "" (current_task state)))], Raise e).
Proof.
  intros Hllm. unfold data_researcher, llm_invoke, bind. cbv zeta.
  now rewrite Hllm.
Qed.

Lemma market_researcher_raises (state : AgentState) (e : Exn) :
  llm (market_researcher_prompt (get "" (current_task state))) = Raise e ->
  market_researcher llm state
  = ([Generate (market_researcher_prompt (get "" (current_task state)))], Raise e).
Proof.
  intros Hllm. unfold market_researcher, llm_invoke, bind. cbv zeta.
  now rewrite Hllm.
Qed.

(** An exception raised by the node that is due ends the run at once,
    whatever the limit left. *)
Lemma pregel_node_raises (limit : nat) (node : string) (run_node : Node)
      (state : AgentState) (evs : list Event) (e : Exn) :
  lookup node (nodes llm now) = Some run_node ->
  run_node state = (evs, Raise e) ->
  pregel llm now (S limit) node state = (Enter node :: evs, Raise e).
Proof.
  intros Hnode Hrun. cbn [pregel]. unfold superstep.
  rewrite Hnode. unfold bind, tell. rewrite Hrun. reflexivity.
Qed.

End Failure.

(** With a collaborator that is out of quota, [data_researcher] raises the
    collaborator's exception: not a [GenerationError], and nothing that
    names the worker or the task.  [invoke] raises it too and returns no
    state. *)
Lemma failure_is_not_a_GenerationError :
  answer (data_researcher out_of_quota (initial_state "task"))
  = Raise (CollaboratorError "quota") /\
  ~ (exists worker task,
       answer (data_researcher out_of_quota (initial_state "task"))
       = Raise (GenerationError worker task)) /\
  ~ (exists partial,
       answer (invoke out_of_quota "2025-01-01 09:30" (initial_state "task"))
       = Ok partial).
Proof.
  split; [reflexivity |]. split.
  - intros (worker & task & H). discriminate H.
  - intros (partial & H). vm_compute in H. discriminate H.
Qed.

(** C10, amended.  If the call made by the data researcher, or by the
    market researcher, raises, the worker has made that one call and no
    other, and raises the collaborator's exception as it is.  The graph
    stops at that node, whatever the state and the limit left: no later
    node is visited and no later call is made.  On the run from the
    initial state [invoke] raises that same exception: the caller gets
    neither a state nor a report. *)
Theorem researcher_failure_ends_run
        (llm : string -> Res string) (now task : string) (e : Exn) :
  task <> "" ->
  (llm (data_researcher_prompt task) = Raise e ->
   (forall state limit,
      current_task state = Some task ->
      data_researcher llm state
      = ([Generate (data_researcher_prompt task)], Raise e) /\
      pregel llm now (S limit) "data_researcher" state
      = ([Enter "data_researcher"; Generate (data_researcher_prompt task)],
         Raise e)) /\
   invoke llm now (initial_state task)
   = ([ Enter "ceo_agent"; Enter "research_team_leader";
        Enter "data_researcher"; Generate (data_researcher_prompt task) ],
      Raise e)) /\
  (llm (market_researcher_prompt task) = Raise e ->
   (forall state limit,
      current_task state = Some task ->
      market_researcher llm state
      = ([Generate (market_researcher_prompt task)], Raise e) /\
      pregel llm now (S limit) "market_researcher" state
      = ([Enter "market_researcher"; Generate (market_researcher_prompt task)],
         Raise e)) /\
   (forall data,
      llm (data_researcher_prompt task) = Ok data ->
      invoke llm now (initial_state task)
      = ([ Enter "ceo_agent"; Enter "research_team_leader";
           Enter "data_researcher"; Generate (data_researcher_prompt task);
           Enter "market_researcher"; Generate (market_researcher_prompt task) ],
         Raise e))).
Proof.
  intros _. split.
  - intros Hdata. split.
    + intros state limit Htask.
      assert (Hnode : data_researcher llm state
                      = ([Generate (data_researcher_prompt task)], Raise e)).
      { rewrite (data_researcher_raises llm state e); rewrite Htask; trivial. }
      split; [exact Hnode |].
      now apply pregel_node_raises with (run_node := data_researcher llm).
    + unfold invoke. vm_compute. vm_compute in Hdata. rewrite Hdata. reflexivity.
  - intros Hmarket. split.
    + intros state limit Htask.
      assert (Hnode : market_researcher llm state
                      = ([Generate (market_researcher_prompt task)], Raise e)).
      { rewrite (market_researcher_raises llm state e); rewrite Htask; trivial. }
      split; [exact Hnode |].
      now apply pregel_node_raises with (run_node := market_researcher llm).
    + intros data Hdata.
      unfold invoke. vm_compute. vm_compute in Hdata, Hmarket.
      rewrite Hdata, Hmarket. reflexivity.
Qed.

Lemma researcher_failure_ends_run_witness :
  (data_researcher out_of_quota (initial_state "task")
   = ([Generate (data_researcher_prompt "task")], Raise (CollaboratorError "quota")) /\
   invoke out_of_quota "2025-01-01 09:30" (initial_state "task")
   = ([ Enter "ceo_agent"; Enter "research_team_leader";
        Enter "data_researcher"; Generate (data_researcher_prompt "task") ],
      Raise (CollaboratorError "quota"))) /\
  (market_researcher quota_after_data (initial_state "task")
   = ([Generate (market_researcher_prompt "task")], Raise (CollaboratorError "quota")) /\
   invoke quota_after_data "2025-01-01 09:30" (initial_state "task")
   = ([ Enter "ceo_agent"; Enter "research_team_leader";
        Enter "data_researcher"; Generate (data_researcher_prompt "task");
        Enter "market_researcher"; Generate (market_researcher_prompt "task") ],
      Raise (CollaboratorError "quota"))).
Proof.
  destruct (researcher_failure_ends_run out_of_quota "2025-01-01 09:30" "task"
              (CollaboratorError "quota")) as [Hdata _]; [discriminate |].
  destruct (researcher_failure_ends_run quota_after_data "2025-01-01 09:30" "task"
              (CollaboratorError "quota")) as [_ Hmarket]; [discriminate |].
  destruct (Hdata eq_refl) as [Hnode Hrun].
  destruct (Hmarket eq_refl) as [Hnode' Hrun'].
  split; split.
  - apply (Hnode (initial_state "task") 0). reflexivity.
  - exact Hrun.
  - apply (Hnode' (initial_state "task") 0). reflexivity.
  - apply (Hrun' "STATS"). reflexivity.
Defined.

(** ** Research fields *)

(** With a collaborator that answers the empty text, the run reaches a
    state whose [merged_research] is not empty while [research_data] and
    [market_data] both are. *)
Lemma merged_research_over_empty_inputs :
  exists node state,
    reaches (always "") "2025-01-01 09:30" (initial_state "task") node state /\
    is_nonempty (merged_research state) /\
    research_data state = Some "" /\
    market_data state = Some "".
Proof.
  destruct (advance (always "") "2025-01-01 09:30" 5 entry_point (initial_state "task"))
    as [[node state]|e] eqn:Hrun.
  - exists node, state. split.
    + eapply advance_reaches; [apply reaches_start | exact Hrun].
    + vm_compute in Hrun. injection Hrun as <- <-. repeat split.
  - vm_compute in Hrun. discriminate Hrun.
Qed.

(** C7, amended.  In every state a run from the initial state of a
    non-empty task reaches, [merged_research] is non-empty only if both
    researchers have written their field, [research_data] and
    [market_data]; and the two fields are non-empty as well when the
    collaborator never answers the empty text. *)
Theorem merged_research_needs_both_fields
        (llm : string -> Res string) (now task node : string) (state : AgentState) :
  task <> "" ->
  reaches llm now (initial_state task) node state ->
  is_nonempty (merged_research state) ->
  (is_set (research_data state) /\ is_set (market_data state)) /\
  ((forall prompt text, llm prompt = Ok text -> text <> "") ->
   is_nonempty (research_data state) /\ is_nonempty (market_data state)).
Proof.
  intros _ Hreach Hmerged.
  assert (Hset : merged_research state <> None).
  { intros Hnone. unfold is_nonempty in Hmerged. rewrite Hnone in Hmerged.
    discriminate Hmerged. }
  split.
  - apply (research_ready_reaches llm now is_set) in Hreach; trivial.
    + now apply Hreach.
    + intros prompt text _. discriminate.
  - intros Hllm.
    apply (research_ready_reaches llm now is_nonempty) in Hreach; trivial.
    + now apply Hreach.
    + intros prompt text Htext. apply truthy_true. eapply Hllm, Htext.
Qed.

Lemma merged_research_needs_both_fields_witness :
  exists node state,
    reaches (always "text") "2025-01-01 09:30" (initial_state "task") node state /\
    is_nonempty (merged_research state) /\
    (is_set (research_data state) /\ is_set (market_data state)) /\
    is_nonempty (research_data state) /\ is_nonempty (market_data state).
Proof.
  destruct (advance (always "text") "2025-01-01 09:30" 5 entry_point (initial_state "task"))
    as [[node state]|e] eqn:Hrun.
  - assert (Hreach : reaches (always "text") "2025-01-01 09:30"
                             (initial_state "task") node state).
    { eapply advance_reaches; [apply reaches_start | exact Hrun]. }
    assert (Hmerged : is_nonempty (merged_research state)).
    { vm_compute in Hrun. injection Hrun as <- <-. reflexivity. }
    exists node, state. split; [exact Hreach |]. split; [exact Hmerged |].
    destruct (merged_research_needs_both_fields
                (always "text") "2025-01-01 09:30" "task" node state)
      as [Hset Hnonempty]; [discriminate | exact Hreach | exact Hmerged |].
    split; [exact Hset |]. apply Hnonempty.
    intros prompt text [= <-]. discriminate.
  - vm_compute in Hrun. discriminate Hrun.
Defined.

(** ** Names written to [next_agent] *)

(** C8.  Given the snapshot [all_texts_present] as its input, the graph
    visits [ceo_agent], which writes ["end"] to [next_agent]: a value that
    is neither one of the nine registered names nor [END].  The router
    returns it, the path map of the edge does not hold it, and [invoke]
    raises a [KeyError] instead of ending the run. *)
Theorem invoke_raises_on_end (llm : string -> Res string) (now : string) :
  reaches llm now all_texts_present entry_point all_texts_present /\
  next_agent (apply_update all_texts_present (ceo_agent all_texts_present))
  = Some "end" /\
  ~ In "end" registered /\
  "end" <> END /\
  superstep llm now entry_point all_texts_present
  = ([Enter "ceo_agent"], Raise (KeyError "end")) /\
  invoke llm now all_texts_present
  = ([Enter "ceo_agent"], Raise (KeyError "end")).
Proof.
  split; [apply reaches_start |].
  split; [reflexivity |].
  split; [simpl; intuition discriminate |].
  split; [discriminate |].
  split; reflexivity.
Qed.

(** X14. On the runs the program itself starts this does not happen: from
    the initial state of a task, whatever the collaborator does, every
    state reached has in [next_agent] a registered name, or nothing yet. *)
Lemma next_agent_registered_on_runs
      (llm : string -> Res string) (now task node : string) (state : AgentState) :
  reaches llm now (initial_state task) node state ->
  next_agent state = None \/
  exists name, next_agent state = Some name /\ In name registered.
Proof.
  intros Hreach. apply (routing_sound_reaches llm now task node state Hreach).
Qed.

(** * Further properties *)

(** ** What a superstep leaves alone *)

(** X2. Each field has one writer.  A superstep that succeeds never
    changes [current_task], and changes a text field only when the node
    is the one that writes it: [research_data] with [data_researcher],
    [market_data] with [market_researcher], [merged_research] with
    [merge_research], [technical_text] with [technical_writer],
    [summary_text] with [summary_writer], [final_report] and
    [task_complete] with [compile_report]. *)
Theorem superstep_frame
        (llm : string -> Res string) (now node : string) (state : AgentState)
        (dest : string) (state' : AgentState) :
  answer (superstep llm now node state) = Ok (dest, state') ->
  current_task state' = current_task state /\
  (node <> "data_researcher" -> research_data state' = research_data state) /\
  (node <> "market_researcher" -> market_data state' = market_data state) /\
  (node <> "merge_research" -> merged_research state' = merged_research state) /\
  (node <> "technical_writer" -> technical_text state' = technical_text state) /\
  (node <> "summary_writer" -> summary_text state' = summary_text state) /\
  (node <> "compile_report" ->
   final_report state' = final_report state /\
   task_complete state' = task_complete state).
Proof.
  intros H. take_superstep H; subst state'.
  1: unfold ceo_agent; destruct (negb _); [| destruct (negb _)].
  all: cbn; repeat split; try reflexivity; intros; congruence.
Qed.

Lemma superstep_frame_witness :
  exists dest state',
    answer (superstep (always "text") "2025-01-01 09:30" "merge_research" data_present)
    = Ok (dest, state') /\
    current_task state' = Some "task" /\
    research_data state' = Some "STATS" /\
    market_data state' = Some "market X" /\
    technical_text state' = None.
Proof.
  destruct (superstep (always "text") "2025-01-01 09:30" "merge_research" data_present)
    as [evs [[dest state']|e]] eqn:Hstep; [| discriminate Hstep].
  exists dest, state'.
  destruct (superstep_frame (always "text") "2025-01-01 09:30" "merge_research"
              data_present dest state')
    as (Htask & Hdata & Hmarket & _ & Htech & _).
  { rewrite Hstep. reflexivity. }
  split; [reflexivity |].
  split; [exact Htask |].
  split; [apply Hdata; discriminate |].
  split; [apply Hmarket; discriminate |].
  apply Htech; discriminate.
Defined.

(** X1. No node writes [current_task]: in every state a run reaches, from
    whatever input and with whatever collaborator, it is the one of the
    input. *)
Theorem current_task_is_never_written
        (llm : string -> Res string) (now : string) (input : AgentState)
        (node : string) (state : AgentState) :
  reaches llm now input node state ->
  current_task state = current_task input.
Proof.
  intros Hreach.
  induction Hreach as [| node state dest state' _ IH Hstep]; [reflexivity |].
  rewrite <- IH. take_superstep Hstep; subst state'; try reflexivity.
  unfold ceo_agent; destruct (negb _); [| destruct (negb _)]; reflexivity.
Qed.

Lemma current_task_is_never_written_witness :
  exists node state,
    reaches (always "text") "2025-01-01 09:30" (initial_state "task") node state /\
    node = END /\
    current_task state = Some "task".
Proof.
  destruct (advance (always "text") "2025-01-01 09:30" 10 entry_point (initial_state "task"))
    as [[node state]|e] eqn:Hrun.
  - assert (Hreach : reaches (always "text") "2025-01-01 09:30"
                             (initial_state "task") node state).
    { eapply advance_reaches; [apply reaches_start | exact Hrun]. }
    exists node, state. split; [exact Hreach |]. split.
    + vm_compute in Hrun. now injection Hrun as <- _.
    + apply (current_task_is_never_written _ _ _ _ _ Hreach).
  - vm_compute in Hrun. discriminate Hrun.
Defined.

(** X3. Once [task_complete] is true it stays true, and the run is over
    after the node that is running: whatever that node is and whatever it
    writes to [next_agent], its edge leads to [END]. *)
Theorem complete_run_ends
        (llm : string -> Res string) (now node : string) (state : AgentState)
        (dest : string) (state' : AgentState) :
  task_complete state = Some true ->
  answer (superstep llm now node state) = Ok (dest, state') ->
  dest = END /\ task_complete state' = Some true.
Proof.
  intros Hdone H. take_superstep H; subst state'.
  1: unfold ceo_agent in *; destruct (negb _); [| destruct (negb _)].
  all: unfold router in Hroute; cbn in Hroute; try rewrite Hdone in Hroute;
    cbn in Hroute; injection Hroute as <-; cbn; auto.
Qed.

Lemma complete_run_ends_witness :
  exists state',
    answer (superstep out_of_quota "2025-01-01 09:30" "ceo_agent"
              (apply_update all_texts_present
                 (compile_report "2025-01-01 09:30" all_texts_present)))
    = Ok (END, state') /\
    next_agent state' = Some "end" /\
    task_complete state' = Some true.
Proof.
  destruct (superstep out_of_quota "2025-01-01 09:30" "ceo_agent"
              (apply_update all_texts_present
                 (compile_report "2025-01-01 09:30" all_texts_present)))
    as [evs [[dest state']|e]] eqn:Hstep; [| discriminate Hstep].
  destruct (complete_run_ends out_of_quota "2025-01-01 09:30" "ceo_agent"
              (apply_update all_texts_present
                 (compile_report "2025-01-01 09:30" all_texts_present))
              dest state' eq_refl) as [-> Hdone].
  { rewrite Hstep. reflexivity. }
  exists state'. split; [reflexivity |]. split; [| exact Hdone].
  vm_compute in Hstep. now injection Hstep as _ <-.
Defined.

(** ** Events and the log *)

Lemma entered_app (evs evs' : list Event) :
  entered (evs ++ evs') = (entered evs ++ entered evs')%list.
Proof.
  induction evs as [|[n|p] evs IH]; simpl; [reflexivity | now rewrite IH | exact IH].
Qed.

Lemma generated_app (evs evs' : list Event) :
  generated (evs ++ evs') = (generated evs ++ generated evs')%list.
Proof.
  induction evs as [|[n|p] evs IH]; simpl; [reflexivity | exact IH | now rewrite IH].
Qed.

(** The events of a superstep that succeeds: the node is entered, and the
    collaborator is called at most once. *)
Lemma superstep_events
      (llm : string -> Res string) (now node : string) (state : AgentState)
      (evs : list Event) (dest : string) (state' : AgentState) :
  superstep llm now node state = (evs, Ok (dest, state')) ->
  entered evs = [node] /\ List.length (generated evs) <= 1.
Proof.
  unfold superstep.
  destruct (lookup node (nodes llm now)) as [run_node|] eqn:Hnode; [| discriminate].
  apply node_cases in Hnode.
  unfold bind, tell.
  destruct (run_node state) as [evs' [update|e]] eqn:Hrun; [| discriminate].
  destruct (lookup (router (apply_update state update)) path_map); [| discriminate].
  cbn. intros [= <- _ _].
  repeat match type of Hnode with
         | _ \/ _ => destruct Hnode as [Hnode | Hnode]
         end;
    destruct Hnode as [-> ->]; node_returned Hrun; cbn; auto.
Qed.

(** X4. In a run that returns, from whatever node and state and under
    whatever limit, the log of the state returned is the log at the start
    followed by one message for each node entered, and the collaborator
    was called at most once for each node entered. *)
Theorem pregel_log_and_calls
        (llm : string -> Res string) (now : string) (limit : nat) :
  forall node state evs final,
    pregel llm now limit node state = (evs, Ok final) ->
    (exists new,
       messages final = (messages state ++ new)%list /\
       List.length new = List.length (entered evs) /\
       Forall (fun m => content m <> "") new) /\
    List.length (generated evs) <= List.length (entered evs).
Proof.
  induction limit as [|limit IH]; intros node state evs final Hrun.
  - discriminate Hrun.
  - cbn [pregel] in Hrun.
    destruct (superstep llm now node state) as [evs1 [[dest state']|e]] eqn:Hstep;
      [| discriminate Hrun].
    destruct (superstep_events llm now node state evs1 dest state' Hstep)
      as [Hentered Hcalls].
    destruct (superstep_appends_one_message llm now node state dest state')
      as (m & Hlog & Hm); [now rewrite Hstep |].
    unfold bind in Hrun.
    destruct (dest =? END)%string.
    + injection Hrun as <- <-. rewrite app_nil_r, Hentered. split; [| exact Hcalls].
      exists [m]. repeat split; [exact Hlog | now constructor].
    + destruct (pregel llm now limit dest state') as [evs2 r] eqn:Hrest.
      injection Hrun as <- ->.
      destruct (IH dest state' evs2 final Hrest) as [(new & Hnew & Hlen & Hall) Hcalls2].
      rewrite entered_app, generated_app, !length_app, Hentered. split.
      * exists (m :: new). rewrite Hnew, Hlog, <- app_assoc. cbn.
        repeat split; [now rewrite Hlen | now constructor].
      * cbn in *. lia.
Qed.

Lemma pregel_log_and_calls_witness :
  exists evs final,
    pregel (always "text") "2025-01-01 09:30" 6 "merge_research" data_present
    = (evs, Ok final) /\
    (exists new,
       messages final = (messages data_present ++ new)%list /\
       List.length new = List.length (entered evs) /\
       Forall (fun m => content m <> "") new) /\
    List.length (generated evs) <= List.length (entered evs).
Proof.
  destruct (pregel (always "text") "2025-01-01 09:30" 6 "merge_research" data_present)
    as [evs [final|e]] eqn:Hrun.
  - exists evs, final. split; [reflexivity |].
    apply (pregel_log_and_calls (always "text") "2025-01-01 09:30" 6
             "merge_research" data_present evs final Hrun).
  - vm_compute in Hrun. discriminate Hrun.
Defined.

(** ** Routing errors *)

(** X5. The one routing error the graph can raise.  When the collaborator
    raises no [KeyError] of its own, a superstep of a registered node
    raises one only in [ceo_agent], for the value ["end"], and only on a
    state where research, technical text and summary are all non-empty
    and the report is not compiled. *)
Theorem key_error_only_from_end
        (llm : string -> Res string) (now node : string) (state : AgentState)
        (key : string) :
  (forall prompt k, llm prompt <> Raise (KeyError k)) ->
  In node registered ->
  answer (superstep llm now node state) = Raise (KeyError key) ->
  node = "ceo_agent" /\ key = "end" /\
  is_nonempty (merged_research state) /\
  is_nonempty (technical_text state) /\
  is_nonempty (summary_text state) /\
  task_complete state <> Some true.
Proof.
  intros Hllm Hin.
  unfold registered in Hin. simpl in Hin.
  repeat destruct Hin as [<- | Hin]; try contradiction;
    unfold superstep; cbn [lookup nodes String.eqb Ascii.eqb Bool.eqb];
    unfold pure_node, ret, bind, tell, data_researcher, market_researcher,
      technical_writer, summary_writer, llm_invoke, bind, answer; cbv zeta.
  all: try match goal with
           | |- context [ match ?call with Ok _ => _ | Raise _ => _ end ] =>
               let H := fresh "Hcall" in
               destruct call as [text|e] eqn:H;
               [| cbn; intros [= ->]; now elim (Hllm _ _ H)]
           end.
  all: unfold router, ceo_agent, is_nonempty;
    try (destruct (truthy (get "" (merged_research state))) eqn:Hmerged;
         destruct (truthy (get "" (technical_text state))) eqn:Htech;
         destruct (truthy (get "" (summary_text state))) eqn:Hsummary);
    cbn;
    try (destruct (task_complete state) as [[|]|] eqn:Hdone; cbn);
    intros Hraise; try discriminate Hraise.
  all: injection Hraise as <-; repeat split; discriminate.
Qed.

Lemma key_error_only_from_end_witness :
  "ceo_agent" = "ceo_agent" /\ "end" = "end" /\
  is_nonempty (merged_research all_texts_present) /\
  is_nonempty (technical_text all_texts_present) /\
  is_nonempty (summary_text all_texts_present) /\
  task_complete all_texts_present <> Some true.
Proof.
  apply (key_error_only_from_end (always "text") "2025-01-01 09:30"
           "ceo_agent" all_texts_present "end").
  - intros prompt k. discriminate.
  - simpl. tauto.
  - reflexivity.
Defined.


(** ** The supervisor reads three flags *)

(** X6. [ceo_agent] looks at nothing but whether [merged_research],
    [technical_text] and [summary_text] are empty: on two states that
    agree on these three flags it returns the same message and the same
    [next_agent], whatever the log, the task, the other texts, an earlier
    [next_agent] or [task_complete] hold. *)
Theorem ceo_agent_reads_three_flags (state other : AgentState) :
  truthy (get "" (merged_research state)) = truthy (get "" (merged_research other)) ->
  truthy (get "" (technical_text state)) = truthy (get "" (technical_text other)) ->
  truthy (get "" (summary_text state)) = truthy (get "" (summary_text other)) ->
  ceo_agent state = ceo_agent other.
Proof.
  unfold ceo_agent. intros -> -> ->. reflexivity.
Qed.

Lemma ceo_agent_reads_three_flags_witness :
  ceo_agent (initial_state "task") = ceo_agent data_present.
Proof.
  apply (ceo_agent_reads_three_flags (initial_state "task") data_present);
    reflexivity.
Defined.

(** ** The task in the prompts *)


(** ** A run without a task *)


(** ** The writers fail like the researchers *)



(** ** The recursion limit, from below *)



(** ** Runs with any collaborator *)

(** Whatever the collaborator does, a run from the initial state ends in
    one of two ways: it returns after the ten nodes of the happy path,
    with the report compiled from the task and the writers' texts, or it
    raises what the collaborator raised to one of the calls made. *)
Lemma invoke_cases (llm : string -> Res string) (now task : string) :
  let run := invoke llm now (initial_state task) in
  (exists final,
     answer run = Ok final /\
     entered (events run) = happy_path /\
     task_complete final = Some true /\
     final_report final
     = Some (report_text now task (get "" (technical_text final))
                         (get "" (summary_text final)))) \/
  (exists prompt e,
     llm prompt = Raise e /\
     answer run = Raise e /\
     In prompt (generated (events run))).
Proof.
  intros run.
  remember run as r eqn:Hrun. unfold run, invoke in Hrun.
  vm_compute in Hrun.
  repeat match type of Hrun with
         | context [ match llm ?p with _ => _ end ] =>
             let H := fresh "Hllm" in
             destruct (llm p) eqn:H; cbv beta iota in Hrun
         end; subst r.
  1: left; eexists; repeat split.
  all: right; do 2 eexists; (split; [eassumption |]); split; [reflexivity |];
    simpl; tauto.
Qed.

(** X11. A run from the initial state never loops and never takes a wrong
    turn, whatever the collaborator does: either it returns after exactly
    the ten nodes of the happy path, with [task_complete] true and the
    report compiled from the task and the two writers' texts, or the
    collaborator raised to one of the calls made and [invoke] raises that
    very exception.  In particular the recursion limit is not reached and
    [ceo_agent] never writes ["end"]. *)
Theorem run_returns_report_or_collaborator_error
        (llm : string -> Res string) (now task : string) :
  let run := invoke llm now (initial_state task) in
  (exists final,
     answer run = Ok final /\
     entered (events run) = happy_path /\
     task_complete final = Some true /\
     final_report final
     = Some (report_text now task (get "" (technical_text final))
                         (get "" (summary_text final)))) \/
  (exists prompt e,
     llm prompt = Raise e /\
     answer run = Raise e /\
     In prompt (generated (events run))).
Proof. exact (invoke_cases llm now task). Qed.

(** ** The page *)

(** X12. What the page shows when the button is pressed.  A question that
    is blank once stripped gets the warning, and the graph is not run: no
    node is entered and the collaborator is not called.  Any other
    question gets the report of the run, under its heading; the report
    starts with a line break and holds the question as typed.  Or the
    collaborator raised, and the exception leaves the handler.  The
    message that the report could not be generated is never shown. *)
Theorem page_outcomes
        (strip : string -> string) (llm : string -> Res string)
        (now user_question : string) :
  let page := generate_report strip llm now user_question in
  (strip user_question = "" /\
   page = ([], Ok [st_warning
                     "Please enter a question or task before generating a report."])) \/
  (strip user_question <> "" /\
   exists report,
     answer page
     = Ok [ st_spinner "Generating report... This may take some time.";
            st_subheader "Final Report";
            st_markdown report ] /\
     entered (events page) = happy_path /\
     prefix nl report = true /\
     contains report user_question) \/
  (strip user_question <> "" /\
   exists prompt e, llm prompt = Raise e /\ answer page = Raise e).
Proof.
  intros page. subst page. unfold generate_report.
  destruct (truthy (strip user_question)) eqn:Hblank; cbn [negb].
  - apply truthy_true in Hblank. right.
    destruct (invoke_cases llm now user_question)
      as [(final & Hanswer & Hentered & _ & Hreport)
         | (prompt & e & Hllm & Hanswer & _)].
    + left. split; [exact Hblank |].
      destruct (invoke llm now (initial_state user_question)) as [evs r].
      cbn in Hanswer, Hentered. subst r. unfold bind. rewrite Hreport.
      cbn. rewrite app_nil_r.
      eexists. split; [reflexivity |]. split; [exact Hentered |].
      split; [reflexivity | apply report_text_contains].
    + right. split; [exact Hblank |]. exists prompt, e. split; [exact Hllm |].
      destruct (invoke llm now (initial_state user_question)) as [evs r].
      cbn in Hanswer. subst r. reflexivity.
  - left. split; [| reflexivity].
    destruct (strip user_question); [reflexivity | discriminate Hblank].
Qed.

(** The page on two questions, with [str.strip] as it is on ASCII text:
    blanks only, and the question of [__main__]. *)
Example page_on_blanks :
  generate_report strip_ascii out_of_quota "2025-01-01 09:30" "   "
  = ([], Ok [st_warning
               "Please enter a question or task before generating a report."]).
Proof. reflexivity. Qed.

Example page_on_example_question :
  exists report,
    answer (generate_report strip_ascii (always "text") "2025-01-01 09:30"
              example_question)
    = Ok [ st_spinner "Generating report... This may take some time.";
           st_subheader "Final Report";
           st_markdown report ] /\
    contains report example_question.
Proof.
  eexists. split; [vm_compute; reflexivity |].
  apply (report_text_contains "2025-01-01 09:30" example_question "text" "text").
Qed.

(** ** Witnesses for the routing lemmas *)

Lemma superstep_dest_witness :
  exists dest state',
    answer (superstep (always "text") "2025-01-01 09:30" "merge_research" data_present)
    = Ok (dest, state') /\
    dest = router state' /\
    (In dest registered \/ dest = END).
Proof.
  destruct (superstep (always "text") "2025-01-01 09:30" "merge_research" data_present)
    as [evs [[dest state']|e]] eqn:Hstep; [| discriminate Hstep].
  exists dest, state'. split; [reflexivity |].
  apply (superstep_dest (always "text") "2025-01-01 09:30" "merge_research"
           data_present dest state').
  rewrite Hstep. reflexivity.
Defined.

Lemma next_agent_registered_on_runs_witness :
  exists node state,
    reaches quota_after_data "2025-01-01 09:30" (initial_state "task") node state /\
    node = "market_researcher" /\
    (next_agent state = None \/
     exists name, next_agent state = Some name /\ In name registered).
Proof.
  destruct (advance quota_after_data "2025-01-01 09:30" 3 entry_point (initial_state "task"))
    as [[node state]|e] eqn:Hrun.
  - assert (Hreach : reaches quota_after_data "2025-01-01 09:30"
                             (initial_state "task") node state).
    { eapply advance_reaches; [apply reaches_start | exact Hrun]. }
    exists node, state. split; [exact Hreach |]. split.
    + vm_compute in Hrun. now injection Hrun as <- _.
    + apply (next_agent_registered_on_runs quota_after_data "2025-01-01 09:30"
               "task" node state Hreach).
  - vm_compute in Hrun. discriminate Hrun.
Defined.
